(** * Gen4 detection data module: windowed multi-stream batching

    A shallow embedding of [object_detection/dataset.py] (the
    [Gen4DetectionDataset] data module) together with the components it wires
    up: the class lookup builder, the label windower, the stream cursor and the
    stream multiplexer.  The data module itself is embedded from the Python
    source.  The four components live in the external [metavision_ml] package
    ([box_processing.create_class_lookup], [box_processing.load_boxes],
    [SequentialDataLoader]); their definitions below follow the design
    document and are marked as such. *)

From Stdlib Require Import Ascii ZArith QArith Qround Qreals Reals Lia Lra.
From stdpp Require Import gmap strings list numbers.

Local Open Scope Z_scope.

(* ===================================================================== *)
(** ** Errors *)
(* ===================================================================== *)

(** The Python exceptions and the design document's error taxonomy. *)
Inductive Error : Type :=
  | ConfigError (what : string)
  | DataCorruptionError (path : string)
  | AttributeError (attr : string).

Inductive Result (A : Type) : Type :=
  | Ok (a : A)
  | Raise (e : Error).
Arguments Ok {A} a.
Arguments Raise {A} e.

Definition bind {A B : Type} (r : Result A) (k : A -> Result B) : Result B :=
  match r with
  | Ok a => k a
  | Raise e => Raise e
  end.

(* ===================================================================== *)
(** ** Data model *)
(* ===================================================================== *)

(** One annotated box: timestamp, spatial box, raw class id.  The diagonal is
    derived from the width and the height. *)
Record BoxLabel : Type := mkBox {
  timestamp : Z;
  box_x : Q;
  box_y : Q;
  box_w : Q;
  box_h : Q;
  class_id : Z
}.

(** A box of a chunk's label set: its time bin within the chunk and the box
    with its class id remapped. *)
Record WindowedBox : Type := mkWindowed {
  tbin : Z;
  label : BoxLabel
}.

Abbreviation BoxLabelSet := (list WindowedBox).

(** A tensor chunk: its dimensions [num_tbins; channels; height; width] and
    its cells in row-major order. *)
Record TensorChunk : Type := mkChunk {
  dims : list Z;
  cells : list Z
}.

(** One recording: its path, the time span it covers and the two external
    collaborators restricted to it (tensor preprocessing and raw label
    source).  [read_tensor] answers [None] at end of data. *)
Record RecordingFile : Type := mkRecording {
  path : string;
  t_first : Z;
  t_last : Z;
  read_tensor : Z -> Z -> option TensorChunk;
  read_labels : Z -> Z -> list BoxLabel
}.

(* ===================================================================== *)
(** ** ClassLookupBuilder *)
(* ===================================================================== *)

(** Modelled from the spec: [box_api.create_class_lookup] is not part of the
    sources (it belongs to [metavision_ml]).  The lookup maps a raw class id
    to a training id; a raw id without an entry is excluded.  The selection is
    walked in order, the index of a name is its training id, and a name absent
    from the schema is a [ConfigError].  An entry written for a raw id
    replaces an earlier one, as a dictionary assignment does. *)
Fixpoint build_from (label_schema : gmap string Z) (names : list string)
    (next_id : nat) (acc : gmap Z nat) : Result (gmap Z nat) :=
  match names with
  | [] => Ok acc
  | name :: rest =>
      match label_schema !! name with
      | None => Raise (ConfigError name)
      | Some raw => build_from label_schema rest (S next_id) (<[raw := next_id]> acc)
      end
  end.

Definition build (label_schema : gmap string Z) (class_selection : list string)
    : Result (gmap Z nat) :=
  build_from label_schema class_selection 0%nat ∅.

(** The raw ids of the selected names, in selection order. *)
Definition selected_ids (label_schema : gmap string Z) (class_selection : list string)
    : list Z :=
  omap (fun name => label_schema !! name) class_selection.

(* ===================================================================== *)
(** ** LabelWindower *)
(* ===================================================================== *)

Definition in_window (window_start window_end t : Z) : bool :=
  (window_start <=? t) && (t <? window_end).

Definition diag_sq (b : BoxLabel) : Q :=
  (box_w b * box_w b + box_h b * box_h b)%Q.

(** [sqrt (w² + h²) >= min_box_diagonal], decided on the squares: a threshold
    that is not positive keeps every box. *)
Definition diag_ok (min_box_diagonal : Q) (b : BoxLabel) : bool :=
  if Qle_bool min_box_diagonal 0 then true
  else Qle_bool (min_box_diagonal * min_box_diagonal) (diag_sq b).

Definition bin_width (window_start window_end num_tbins : Z) : Q :=
  (inject_Z (window_end - window_start) / inject_Z num_tbins)%Q.

Definition time_bin (window_start window_end num_tbins t : Z) : Z :=
  Qfloor (inject_Z (t - window_start) / bin_width window_start window_end num_tbins)%Q.

Definition remap (b : BoxLabel) (train_id : nat) : BoxLabel :=
  {| timestamp := timestamp b; box_x := box_x b; box_y := box_y b;
     box_w := box_w b; box_h := box_h b; class_id := Z.of_nat train_id |}.

(** The three filters and the remapping, on one box. *)
Definition keep_box (window_start window_end : Z) (class_lookup : gmap Z nat)
    (min_box_diagonal : Q) (b : BoxLabel) : option BoxLabel :=
  if in_window window_start window_end (timestamp b) then
    match class_lookup !! class_id b with
    | Some train_id =>
        if diag_ok min_box_diagonal b then Some (remap b train_id) else None
    | None => None
    end
  else None.

Definition bins (num_tbins : Z) : list Z :=
  map Z.of_nat (seq 0 (Z.to_nat num_tbins)).

(** Modelled from the spec: [box_api.load_boxes] is not part of the sources.
    Boxes are filtered to the window, by class and by diagonal, remapped, and
    laid out bin after bin, keeping the input order within a bin. *)
Definition select (raw_labels : list BoxLabel) (window_start window_end : Z)
    (class_lookup : gmap Z nat) (min_box_diagonal : Q) (num_tbins : Z)
    : BoxLabelSet :=
  let kept :=
    omap (keep_box window_start window_end class_lookup min_box_diagonal) raw_labels in
  flat_map
    (fun k =>
       map (mkWindowed k)
         (List.filter
            (fun b => time_bin window_start window_end num_tbins (timestamp b) =? k)
            kept))
    (bins num_tbins).

(* ===================================================================== *)
(** ** Windowing configuration of the core *)
(* ===================================================================== *)

(** The options the core consumes. *)
Record CoreConfig : Type := mkCore {
  cfg_batch_size : Z;
  cfg_num_tbins : Z;
  cfg_delta_t : Z;
  cfg_channels : Z;
  cfg_height : Z;
  cfg_width : Z;
  cfg_class_lookup : gmap Z nat;
  cfg_min_box_diagonal : Q;
  cfg_shuffle_files_per_epoch : bool
}.

Definition chunk_shape (cfg : CoreConfig) : list Z :=
  [cfg_num_tbins cfg; cfg_channels cfg; cfg_height cfg; cfg_width cfg].

Definition window_len (cfg : CoreConfig) : Z :=
  cfg_num_tbins cfg * cfg_delta_t cfg.

Definition zero_chunk (cfg : CoreConfig) : TensorChunk :=
  {| dims := chunk_shape cfg;
     cells := repeat 0 (Z.to_nat (fold_right Z.mul 1 (chunk_shape cfg))) |}.

(* ===================================================================== *)
(** ** StreamCursor *)
(* ===================================================================== *)

Inductive CursorState : Type := Created | Active | Exhausted.

Record StreamCursor : Type := mkCursor {
  file : RecordingFile;
  offset : Z;
  state : CursorState
}.

Definition open_cursor (f : RecordingFile) : StreamCursor :=
  {| file := f; offset := t_first f; state := Created |}.

Definition retire (c : StreamCursor) : StreamCursor :=
  {| file := file c; offset := offset c; state := Exhausted |}.

(** Modelled from the spec: the cursor lives inside [SequentialDataLoader],
    which is not part of the sources.  [Ok None] is exhaustion, [Ok (Some _)]
    a chunk with its labels, [Raise _] a corrupt chunk (the cursor is dropped:
    it ends [Exhausted] as well). *)
Definition advance (cfg : CoreConfig) (c : StreamCursor)
    : StreamCursor * Result (option (TensorChunk * BoxLabelSet)) :=
  match state c with
  | Exhausted => (c, Ok None)
  | Created | Active =>
      let window_end := offset c + window_len cfg in
      if t_last (file c) <? window_end then (retire c, Ok None)
      else
        match read_tensor (file c) (offset c) window_end with
        | None => (retire c, Ok None)
        | Some chunk =>
            if bool_decide (dims chunk = chunk_shape cfg) then
              ({| file := file c; offset := window_end; state := Active |},
               Ok (Some (chunk,
                         select (read_labels (file c) (offset c) window_end)
                           (offset c) window_end (cfg_class_lookup cfg)
                           (cfg_min_box_diagonal cfg) (cfg_num_tbins cfg))))
            else (retire c, Raise (DataCorruptionError (path (file c))))
        end
  end.

(** [n] calls of [advance] in a row: the results, in call order, and the
    cursor left behind. *)
Fixpoint poll (cfg : CoreConfig) (n : nat) (c : StreamCursor)
    : list (Result (option (TensorChunk * BoxLabelSet))) * StreamCursor :=
  match n with
  | O => ([], c)
  | S n' =>
      let '(c', r) := advance cfg c in
      let '(rs, c'') := poll cfg n' c' in
      (r :: rs, c'')
  end.

(* ===================================================================== *)
(** ** StreamMultiplexer *)
(* ===================================================================== *)

Inductive Slot : Type :=
  | Empty
  | ActiveCursor (c : StreamCursor)
  | RetiredThisEpoch.

Record SlotOutput : Type := mkOutput {
  chunk : TensorChunk;
  labels : BoxLabelSet;
  padding : bool
}.

Abbreviation Batch := (list SlotOutput).

(** The scheduler: its configuration, the full file list of its split, the
    slot array and the queue of files not yet assigned in this epoch. *)
Record StreamMultiplexer : Type := mkMux {
  mux_cfg : CoreConfig;
  mux_files : list RecordingFile;
  slots : list Slot;
  queue : list RecordingFile
}.

Definition is_empty (s : Slot) : bool :=
  match s with Empty => true | _ => false end.

Definition not_active (s : Slot) : Prop :=
  match s with ActiveCursor _ => False | _ => True end.

Definition padding_output (cfg : CoreConfig) : SlotOutput :=
  {| chunk := zero_chunk cfg; labels := []; padding := true |}.

(** Step 1: every slot that is [Empty] (a slot retired in the previous step
    counts as [Empty]) takes the next file of the queue, slots in index order;
    with the queue empty the slot stays [Empty].  The third component lists the
    assignments made, as (slot index, file). *)
Fixpoint refill (i : nat) (ss : list Slot) (q : list RecordingFile)
    : list Slot * list RecordingFile * list (nat * RecordingFile) :=
  match ss with
  | [] => ([], q, [])
  | ActiveCursor c :: rest =>
      let '(rest', q', log) := refill (S i) rest q in
      (ActiveCursor c :: rest', q', log)
  | _ :: rest =>
      match q with
      | [] =>
          let '(rest', q', log) := refill (S i) rest [] in
          (Empty :: rest', q', log)
      | f :: q0 =>
          let '(rest', q', log) := refill (S i) rest q0 in
          (ActiveCursor (open_cursor f) :: rest', q', (i, f) :: log)
      end
  end.

(** Step 2, on one slot: an active cursor is advanced; exhaustion or a fatal
    cursor error retires the slot, which pads this step. *)
Definition poll_slot (cfg : CoreConfig) (s : Slot) : Slot * SlotOutput :=
  match s with
  | ActiveCursor c =>
      match advance cfg c with
      | (c', Ok (Some (t, l))) =>
          (ActiveCursor c', {| chunk := t; labels := l; padding := false |})
      | (_, _) => (RetiredThisEpoch, padding_output cfg)
      end
  | Empty => (Empty, padding_output cfg)
  | RetiredThisEpoch => (Empty, padding_output cfg)
  end.

(** The files assigned to slots by the step taken from [m]. *)
Definition assignments (m : StreamMultiplexer) : list (nat * RecordingFile) :=
  (refill 0 (slots m) (queue m)).2.

(** Modelled from the spec: [SequentialDataLoader] is not part of the sources.
    One step of the scheduler; [None] is the end of the epoch. *)
Definition next_batch (m : StreamMultiplexer) : StreamMultiplexer * option Batch :=
  let '(filled, q', _) := refill 0 (slots m) (queue m) in
  let polled := map (poll_slot (mux_cfg m)) filled in
  let m' := {| mux_cfg := mux_cfg m; mux_files := mux_files m;
               slots := map fst polled; queue := q' |} in
  if forallb is_empty (map fst polled) then (m', None)
  else (m', Some (map snd polled)).

(** The multiplexer after [n] calls of [next_batch]. *)
Fixpoint after (n : nat) (m : StreamMultiplexer) : StreamMultiplexer :=
  match n with
  | O => m
  | S n' => after n' (next_batch m).1
  end.

(** A multiplexer at the start of an epoch: [batch_size] empty slots and the
    whole file list queued. *)
Definition mux_init (cfg : CoreConfig) (files : list RecordingFile) : StreamMultiplexer :=
  {| mux_cfg := cfg; mux_files := files;
     slots := repeat Empty (Z.to_nat (cfg_batch_size cfg));
     queue := files |}.

(** Restarting for a new epoch resets the slots and the queue from the full
    file list; [perm] is the permutation drawn for the epoch, used only when
    [shuffle_files_per_epoch] is set. *)
Definition start_epoch (perm : list RecordingFile -> list RecordingFile)
    (m : StreamMultiplexer) : StreamMultiplexer :=
  {| mux_cfg := mux_cfg m; mux_files := mux_files m;
     slots := repeat Empty (Z.to_nat (cfg_batch_size (mux_cfg m)));
     queue := if cfg_shuffle_files_per_epoch (mux_cfg m)
              then perm (mux_files m) else mux_files m |}.

(** What one step of an epoch shows: the assignments it made and its batch. *)
Record StepTrace : Type := mkStep {
  assigned : list (nat * RecordingFile);
  batch : Batch
}.

(** [next_batch] called until it signals the end of the epoch, at most [fuel]
    times; [None] when the fuel runs out first. *)
Fixpoint run_epoch (fuel : nat) (m : StreamMultiplexer)
    : option (list StepTrace * StreamMultiplexer) :=
  match fuel with
  | O => None
  | S fuel' =>
      match next_batch m with
      | (m', None) => Some ([], m')
      | (m', Some b) =>
          match run_epoch fuel' m' with
          | Some (tr, mf) => Some ({| assigned := assignments m; batch := b |} :: tr, mf)
          | None => None
          end
      end
  end.

(** A bound on the steps an epoch still takes: what is left of each active
    recording, and of each queued one. *)
Definition cursor_left (c : StreamCursor) : nat :=
  Z.to_nat (t_last (file c) - offset c).

Definition slot_cost (s : Slot) : nat :=
  match s with
  | Empty => 0
  | RetiredThisEpoch => 1
  | ActiveCursor c => cursor_left c + 2
  end.

Definition file_cost (f : RecordingFile) : nat :=
  Z.to_nat (t_last f - t_first f) + 3.

Definition potential (m : StreamMultiplexer) : nat :=
  list_sum (map slot_cost (slots m)) + list_sum (map file_cost (queue m)).

Definition epoch (m : StreamMultiplexer) : option (list StepTrace * StreamMultiplexer) :=
  run_epoch (S (potential m)) m.

Definition schedule (tr : list StepTrace) : list (nat * RecordingFile) :=
  concat (map assigned tr).











(** The steps of an epoch as far as [n] calls of [next_batch] show them. *)
Fixpoint steps (n : nat) (m : StreamMultiplexer) : list StepTrace :=
  match n with
  | O => []
  | S n' =>
      match next_batch m with
      | (m', Some b) => {| assigned := assignments m; batch := b |} :: steps n' m'
      | (_, None) => []
      end
  end.

(* ===================================================================== *)
(** ** The data module [Gen4DetectionDataset] (dataset.py) *)
(* ===================================================================== *)

(** [pathlib.Path] on a POSIX system, as far as the module uses it: a path is
    a root (none, "/" or "//") and the components after it. *)
Record PurePosixPath : Type := mkPath {
  path_root : string;
  path_parts : list string
}.

(** The pieces of a string between its slashes. *)
Fixpoint split_slash (s : string) : list string :=
  match s with
  | EmptyString => [EmptyString]
  | String c rest =>
      if Ascii.eqb c "/"%char then EmptyString :: split_slash rest
      else
        match split_slash rest with
        | seg :: more => String c seg :: more
        | [] => [String c EmptyString]
        end
  end.

(** Empty pieces and "." pieces are dropped when a path is parsed. *)
Definition is_component (seg : string) : bool :=
  negb (String.eqb seg "") && negb (String.eqb seg ".").

(** The root of a path string: exactly two leading slashes are kept, any
    other number of them is one slash. *)
Definition split_root (s : string) : string :=
  match s with
  | String c0 (String c1 (String c2 _)) =>
      if Ascii.eqb c0 "/"%char then
        if Ascii.eqb c1 "/"%char then (if Ascii.eqb c2 "/"%char then "/" else "//") else "/"
      else ""
  | String c0 (String c1 EmptyString) =>
      if Ascii.eqb c0 "/"%char then (if Ascii.eqb c1 "/"%char then "//" else "/") else ""
  | String c0 EmptyString => if Ascii.eqb c0 "/"%char then "/" else ""
  | EmptyString => ""
  end.

(** [Path(s)]. *)
Definition Path (s : string) : PurePosixPath :=
  {| path_root := split_root s;
     path_parts := List.filter is_component (split_slash s) |}.

(** [p / s]: a rooted [s] replaces [p], any other [s] adds its components. *)
Definition joinpath (p : PurePosixPath) (s : string) : PurePosixPath :=
  if String.eqb (path_root (Path s)) "" then
    {| path_root := path_root p; path_parts := path_parts p ++ path_parts (Path s) |}
  else Path s.

Fixpoint join_slash (l : list string) : string :=
  match l with
  | [] => ""
  | x :: rest =>
      match rest with
      | [] => x
      | _ :: _ => x +:+ "/" +:+ join_slash rest
      end
  end.

(** Components, each followed by a slash. *)
Fixpoint lead_slash (l : list string) : string :=
  match l with
  | [] => ""
  | x :: rest => x +:+ "/" +:+ lead_slash rest
  end.

(** [str(p)]: the path without root and components is ".". *)
Definition path_str (p : PurePosixPath) : string :=
  match path_root p, path_parts p with
  | EmptyString, [] => "."
  | r, l => r +:+ join_slash l
  end.

(** What the module reads from its environment: the label map file behind a
    path, the paths matching a glob pattern, and the recording behind a
    path. *)
Record FileSystem : Type := mkFs {
  label_map : string -> gmap string Z;
  glob : string -> list string;
  open_recording : string -> RecordingFile
}.

(** [partial(box_api.load_boxes, num_tbins=..., class_lookup=...,
    min_box_diag_network=60)]: the label loader with its baked-in arguments. *)
Record LoadLabels : Type := mkLoadLabels {
  ll_num_tbins : Z;
  ll_class_lookup : gmap Z nat;
  min_box_diag_network : Q
}.

(** The dictionary [self.kw_args], one field per key. *)
Record KwArgs : Type := mkKwArgs {
  delta_t : Z;
  preprocess_function_name : string;
  array_dim : list Z;
  load_labels : LoadLabels;
  batch_size : Z;
  num_workers : Z;
  padding_kw : bool;
  preprocess_kwargs : gmap string Z
}.

(** The parameters of [__init__]. *)
Record InitArgs : Type := mkArgs {
  arg_dataset_path : string;
  arg_label_map_path : string;
  arg_batch_size : Z;
  arg_num_tbins : Z;
  arg_preprocess_function_name : string;
  arg_delta_t : Z;
  arg_channels : Z;
  arg_height : Z;
  arg_width : Z;
  arg_max_incr_per_pixel : Z;
  arg_class_selection : list string;
  arg_num_workers : Z
}.

(** The defaults of the signature of [__init__]. *)
Definition default_args : InitArgs :=
  {| arg_dataset_path := "data/Gen 4 Histograms";
     arg_label_map_path := "label_map_dictionary.json";
     arg_batch_size := 4;
     arg_num_tbins := 12;
     arg_preprocess_function_name := "histo";
     arg_delta_t := 50000;
     arg_channels := 2;
     arg_height := 360;
     arg_width := 640;
     arg_max_incr_per_pixel := 5;
     arg_class_selection := ["pedestrian"; "two wheeler"; "car"];
     arg_num_workers := 4 |}.

(** The attributes of an instance.  The three file lists do not exist until
    [setup] has run: [None] is the missing attribute. *)
Record Gen4DetectionDataset : Type := mkDataset {
  dataset_path : PurePosixPath;
  channels : Z;
  height : Z;
  width : Z;
  class_selection : list string;
  kw_args : KwArgs;
  files_train : option (list string);
  files_val : option (list string);
  files_test : option (list string)
}.

(** [box_api.create_class_lookup(label_map_path, class_selection)]: the label
    map is read and handed to the builder. *)
Definition create_class_lookup (fs : FileSystem) (label_map_path : string)
    (selection : list string) : Result (gmap Z nat) :=
  build (label_map fs label_map_path) selection.

(** [__init__], lines 34-72. *)
Definition init (fs : FileSystem) (a : InitArgs) : Result Gen4DetectionDataset :=
  bind (create_class_lookup fs (arg_label_map_path a) (arg_class_selection a))
    (fun class_lookup =>
       Ok {| dataset_path := Path (arg_dataset_path a);
             channels := arg_channels a;
             height := arg_height a;
             width := arg_width a;
             class_selection := arg_class_selection a;
             kw_args :=
               {| delta_t := arg_delta_t a;
                  preprocess_function_name := arg_preprocess_function_name a;
                  array_dim := [arg_num_tbins a; arg_channels a; arg_height a; arg_width a];
                  load_labels :=
                    {| ll_num_tbins := arg_num_tbins a;
                       ll_class_lookup := class_lookup;
                       min_box_diag_network := 60 |};
                  batch_size := arg_batch_size a;
                  num_workers := arg_num_workers a;
                  padding_kw := true;
                  preprocess_kwargs := {[ "max_incr_per_pixel" := arg_max_incr_per_pixel a ]} |};
             files_train := None;
             files_val := None;
             files_test := None |}).

(** [str(self.dataset_path / split / "*.h5")]. *)
Definition split_pattern (ds : Gen4DetectionDataset) (split : string) : string :=
  path_str (joinpath (joinpath (dataset_path ds) split) "*.h5").

(** [setup], lines 76-79. *)
Definition setup (fs : FileSystem) (ds : Gen4DetectionDataset) : Gen4DetectionDataset :=
  {| dataset_path := dataset_path ds;
     channels := channels ds;
     height := height ds;
     width := width ds;
     class_selection := class_selection ds;
     kw_args := kw_args ds;
     files_train := Some (glob fs (split_pattern ds "train"));
     files_val := Some (glob fs (split_pattern ds "val"));
     files_test := Some (glob fs (split_pattern ds "test")) |}.

(** The call [SequentialDataLoader(files, **self.kw_args)]: its arguments. *)
Record SequentialDataLoader : Type := mkLoader {
  sdl_files : list string;
  sdl_kw_args : KwArgs
}.

Definition dataloader (attr : string) (files : option (list string))
    (kw : KwArgs) : Result SequentialDataLoader :=
  match files with
  | None => Raise (AttributeError attr)
  | Some fl => Ok {| sdl_files := fl; sdl_kw_args := kw |}
  end.

(** [train_dataloader], [val_dataloader], [test_dataloader], lines 83-90. *)
Definition train_dataloader (ds : Gen4DetectionDataset) : Result SequentialDataLoader :=
  dataloader "files_train" (files_train ds) (kw_args ds).

Definition val_dataloader (ds : Gen4DetectionDataset) : Result SequentialDataLoader :=
  dataloader "files_val" (files_val ds) (kw_args ds).

Definition test_dataloader (ds : Gen4DetectionDataset) : Result SequentialDataLoader :=
  dataloader "files_test" (files_test ds) (kw_args ds).

Inductive Split : Type := Train | Val | Test.

Definition split_name (split : Split) : string :=
  match split with
  | Train => "train"
  | Val => "val"
  | Test => "test"
  end.

(** [iterate(split)] of the design is the split's dataloader method. *)
Definition iterate (split : Split) (ds : Gen4DetectionDataset) : Result SequentialDataLoader :=
  match split with
  | Train => train_dataloader ds
  | Val => val_dataloader ds
  | Test => test_dataloader ds
  end.

(** The windowing configuration the loader's keyword arguments amount to.
    The module passes no shuffle option, so the default (no shuffling)
    stands. *)
Definition core_config (kw : KwArgs) : CoreConfig :=
  {| cfg_batch_size := batch_size kw;
     cfg_num_tbins := nth 0 (array_dim kw) 0;
     cfg_delta_t := delta_t kw;
     cfg_channels := nth 1 (array_dim kw) 0;
     cfg_height := nth 2 (array_dim kw) 0;
     cfg_width := nth 3 (array_dim kw) 0;
     cfg_class_lookup := ll_class_lookup (load_labels kw);
     cfg_min_box_diagonal := min_box_diag_network (load_labels kw);
     cfg_shuffle_files_per_epoch := false |}.

(** The multiplexer a loader starts an epoch with. *)
Definition multiplexer_of (fs : FileSystem) (l : SequentialDataLoader) : StreamMultiplexer :=
  mux_init (core_config (sdl_kw_args l)) (map (open_recording fs) (sdl_files l)).

(** A run of [setup] calls on one module, one per state of the file system,
    the oldest first. *)
Definition setups (fss : list FileSystem) (ds : Gen4DetectionDataset)
    : Gen4DetectionDataset :=
  foldl (fun d fs => setup fs d) ds fss.

(** The attribute a split's dataloader reads. *)
Definition files_attr (split : Split) : string :=
  match split with
  | Train => "files_train"
  | Val => "files_val"
  | Test => "files_test"
  end.

(* ===================================================================== *)
(** ** Sample data *)
(* ===================================================================== *)

(** A small configuration: two slots, chunks of two bins of 5 time units, one
    cell per bin. *)
Definition sample_cfg : CoreConfig :=
  {| cfg_batch_size := 2; cfg_num_tbins := 2; cfg_delta_t := 5;
     cfg_channels := 1; cfg_height := 1; cfg_width := 1;
     cfg_class_lookup := {[ 2 := 0%nat ]};
     cfg_min_box_diagonal := 60;
     cfg_shuffle_files_per_epoch := false |}.


(** A recording of [n] chunks of [sample_cfg], without labels. *)
Definition sample_file (name : string) (n : Z) : RecordingFile :=
  {| path := name; t_first := 0; t_last := 10 * n;
     read_tensor := fun _ _ => Some {| dims := [2; 1; 1; 1]; cells := [1; 1] |};
     read_labels := fun _ _ => [] |}.


(** Five recordings of 3, 1, 2, 4 and 2 chunks. *)
Definition sample_files : list RecordingFile :=
  [sample_file "A" 3; sample_file "B" 1; sample_file "C" 2;
   sample_file "D" 4; sample_file "E" 2].

Definition sample_schema : gmap string Z :=
  {[ "pedestrian" := 0; "two wheeler" := 1; "car" := 2; "truck" := 3 ]}.

Definition sample_fs : FileSystem :=
  {| label_map := fun _ => sample_schema;
     glob := fun pattern => [pattern];
     open_recording := fun p => sample_file p 1 |}.

(** The default arguments with a batch size of 0, 0 time bins and a negative
    [delta_t]. *)
Definition degenerate_args : InitArgs :=
  {| arg_dataset_path := "data/Gen 4 Histograms";
     arg_label_map_path := "label_map_dictionary.json";
     arg_batch_size := 0;
     arg_num_tbins := 0;
     arg_preprocess_function_name := "histo";
     arg_delta_t := -1;
     arg_channels := 2;
     arg_height := 360;
     arg_width := 640;
     arg_max_incr_per_pixel := 5;
     arg_class_selection := ["pedestrian"; "two wheeler"; "car"];
     arg_num_workers := 4 |}.

(** A file system with the label map of [sample_fs] and an empty dataset
    directory. *)
Definition empty_dir_fs : FileSystem :=
  {| label_map := fun _ => sample_schema;
     glob := fun _ => [];
     open_recording := fun p => sample_file p 0 |}.

(** Three boxes at time 3: a car of diagonal 70 (42 by 56), a truck, and a
    car of diagonal 40 (24 by 32). *)
Definition sample_boxes : list BoxLabel :=
  [ {| timestamp := 3; box_x := 0; box_y := 0; box_w := 42; box_h := 56; class_id := 2 |};
    {| timestamp := 3; box_x := 0; box_y := 0; box_w := 42; box_h := 56; class_id := 3 |};
    {| timestamp := 3; box_x := 0; box_y := 0; box_w := 24; box_h := 32; class_id := 2 |} ].

(* ===================================================================== *)
(** * Properties *)
(* ===================================================================== *)

(** ** ClassLookupBuilder *)

Lemma build_from_total (label_schema : gmap string Z) (names : list string) :
  Forall (fun name => is_Some (label_schema !! name)) names ->
  forall k acc, exists lk, build_from label_schema names k acc = Ok lk.
Proof.
  induction 1 as [|name rest [raw Hraw] _ IH]; intros k acc; simpl.
  - by exists acc.
  - rewrite Hraw. apply IH.
Qed.

(** What the walk leaves in the table, when the raw ids met are pairwise
    distinct: the [j]-th of them carries id [k + j], the others keep what the
    accumulator had. *)
Lemma build_from_lookup (label_schema : gmap string Z) (names : list string) :
  forall k acc lk,
    NoDup (selected_ids label_schema names) ->
    build_from label_schema names k acc = Ok lk ->
    forall raw i,
      lk !! raw = Some i <->
      ((exists j, selected_ids label_schema names !! j = Some raw /\ i = (k + j)%nat)
       \/ ((raw ∉ selected_ids label_schema names) /\ acc !! raw = Some i)).
Proof.
  induction names as [|name rest IH]; intros k acc lk Hnd Hb raw i; simpl in *.
  - inversion Hb; subst. split.
    + intros H. right. split; [apply not_elem_of_nil | done].
    + intros [[j [Hj _]]|[_ H]]; [done | done].
  - unfold selected_ids in *. simpl in *.
    destruct (label_schema !! name) as [r|] eqn:Hr; [|discriminate].
    simpl in *. apply list.NoDup_cons in Hnd as [Hnotin Hnd].
    rewrite (IH _ _ _ Hnd Hb raw i). split.
    + intros [[j [Hj ->]]|[Hni Hacc]].
      * left. exists (S j). split; [done | lia].
      * destruct (decide (r = raw)) as [->|Hne].
        -- rewrite lookup_insert_eq in Hacc. inversion Hacc; subst.
           left. exists 0%nat. split; [done | lia].
        -- rewrite lookup_insert_ne in Hacc by done.
           right. split; [|done]. apply not_elem_of_cons. split; [congruence | done].
    + intros [[j [Hj ->]]|[Hni Hacc]].
      * destruct j as [|j]; simpl in Hj.
        -- inversion Hj; subst. right. split; [done|].
           rewrite lookup_insert_eq. f_equal. lia.
        -- left. exists j. split; [done | lia].
      * apply not_elem_of_cons in Hni as [Hne Hni].
        right. split; [done|]. by rewrite lookup_insert_ne.
Qed.

(** The [i]-th selected name has the [i]-th selected raw id, when every name
    is in the schema. *)
Lemma selected_ids_lookup (label_schema : gmap string Z) (names : list string) :
  Forall (fun name => is_Some (label_schema !! name)) names ->
  forall i raw,
    selected_ids label_schema names !! i = Some raw <->
    exists name, names !! i = Some name /\ label_schema !! name = Some raw.
Proof.
  unfold selected_ids.
  induction 1 as [|name rest [r Hr] _ IH]; intros i raw; simpl.
  - split; [done | intros [? [? _]]; done].
  - rewrite Hr. simpl. destruct i as [|i]; simpl.
    + split.
      * intros H. inversion H; subst. by exists name.
      * intros [n [Hn Hs]]. inversion Hn; subst. congruence.
    + apply IH.
Qed.

Lemma selected_ids_length (label_schema : gmap string Z) (names : list string) :
  Forall (fun name => is_Some (label_schema !! name)) names ->
  length (selected_ids label_schema names) = length names.
Proof.
  unfold selected_ids. induction 1 as [|name rest [r Hr] _ IH]; simpl; [done|].
  rewrite Hr. simpl. f_equal. exact IH.
Qed.

(** ** LabelWindower *)



Lemma in_window_spec (window_start window_end t : Z) :
  in_window window_start window_end t = true <-> window_start <= t < window_end.
Proof. unfold in_window. rewrite andb_true_iff, Z.leb_le, Z.ltb_lt. done. Qed.

(** A box is kept exactly when it passes the three filters; what is kept is
    the box with its class remapped. *)
Lemma keep_box_Some (window_start window_end : Z) (class_lookup : gmap Z nat)
    (min_box_diagonal : Q) (b b' : BoxLabel) :
  keep_box window_start window_end class_lookup min_box_diagonal b = Some b' <->
  exists train_id,
    window_start <= timestamp b < window_end
    /\ class_lookup !! class_id b = Some train_id
    /\ diag_ok min_box_diagonal b = true
    /\ b' = remap b train_id.
Proof.
  unfold keep_box. split.
  - destruct (in_window _ _ _) eqn:Hw; [|done].
    destruct (class_lookup !! class_id b) as [i|]; [|done].
    destruct (diag_ok _ _); [|done].
    intros H. inversion H; subst. exists i. by apply in_window_spec in Hw.
  - intros [i (Hw & -> & -> & ->)]. apply in_window_spec in Hw. by rewrite Hw.
Qed.

Lemma select_elem_of (raw_labels : list BoxLabel) (window_start window_end : Z)
    (class_lookup : gmap Z nat) (min_box_diagonal : Q) (num_tbins : Z)
    (wb : WindowedBox) :
  wb ∈ select raw_labels window_start window_end class_lookup min_box_diagonal num_tbins <->
  exists b,
    b ∈ raw_labels
    /\ keep_box window_start window_end class_lookup min_box_diagonal b = Some (label wb)
    /\ tbin wb = time_bin window_start window_end num_tbins (timestamp b)
    /\ tbin wb ∈ bins num_tbins.
Proof.
  unfold select. rewrite list_elem_of_In, in_flat_map. split.
  - intros [k [Hk Hin]]. apply in_map_iff in Hin as [b' [<- Hf]].
    apply filter_In in Hf as [Hkept Heq].
    apply list_elem_of_In, list_elem_of_omap in Hkept as [b [Hb Hkeep]].
    exists b. simpl. split; [done|]. split; [done|].
    apply Z.eqb_eq in Heq. apply list_elem_of_In in Hk.
    pose proof Hkeep as Hk'. apply keep_box_Some in Hk' as [i (_ & _ & _ & ->)].
    simpl in Heq. done.
  - intros [b (Hb & Hkeep & Ht & Hbin)].
    exists (tbin wb). split; [by apply list_elem_of_In|].
    apply in_map_iff. exists (label wb). split; [by destruct wb|].
    apply filter_In. split.
    + apply list_elem_of_In, list_elem_of_omap. by exists b.
    + apply Z.eqb_eq. rewrite Ht.
      apply keep_box_Some in Hkeep as [i (_ & _ & _ & ->)]. done.
Qed.



(** For a window that is not empty and a positive number of bins, the bin of
    a timestamp of the window is one of the chunk's bins. *)
Lemma time_bin_range (window_start window_end num_tbins t : Z) :
  0 < num_tbins -> window_start <= t < window_end ->
  0 <= time_bin window_start window_end num_tbins t < num_tbins.
Proof.
  intros Hn Ht. unfold time_bin, bin_width.
  set (a := t - window_start). set (L := window_end - window_start).
  assert (0 <= a < L) as Ha by (unfold a, L; lia).
  rewrite (Qfloor_comp _ (inject_Z (a * num_tbins) / inject_Z L)).
  2:{ rewrite inject_Z_mult. field. split.
      - intros H. apply (inject_Z_injective L 0) in H. lia.
      - intros H. apply (inject_Z_injective num_tbins 0) in H. lia. }
  rewrite <- Zdiv_Qdiv. split.
  - apply Z.div_pos; [nia | lia].
  - apply Z.div_lt_upper_bound; [lia|]. nia.
Qed.

(** Scenario: with [class_selection = ["car"]] and a threshold of 60, the car
    of diagonal 70 survives with id 0 in bin 0; the truck and the car of
    diagonal 40 are dropped. *)
Example select_scenario :
  select sample_boxes 0 10 {[ 2 := 0%nat ]} 60 2 =
  [ {| tbin := 0;
       label := {| timestamp := 3; box_x := 0; box_y := 0; box_w := 42; box_h := 56;
                   class_id := 0 |} |} ].
Proof. reflexivity. Qed.

(** Every box that passes the three filters is in the result, when the chunk
    has a positive number of bins. *)
Lemma select_complete (raw_labels : list BoxLabel) (window_start window_end : Z)
    (class_lookup : gmap Z nat) (min_box_diagonal : Q) (num_tbins : Z)
    (b : BoxLabel) (train_id : nat) :
  0 < num_tbins ->
  b ∈ raw_labels ->
  window_start <= timestamp b < window_end ->
  class_lookup !! class_id b = Some train_id ->
  diag_ok min_box_diagonal b = true ->
  {| tbin := time_bin window_start window_end num_tbins (timestamp b);
     label := remap b train_id |}
  ∈ select raw_labels window_start window_end class_lookup min_box_diagonal num_tbins.
Proof.
  intros Hn Hb Hw Hc Hd. apply select_elem_of. exists b. simpl.
  split; [done|]. split; [apply keep_box_Some; by exists train_id|]. split; [done|].
  pose proof (time_bin_range _ _ _ _ Hn Hw) as Hr.
  unfold bins. apply list_elem_of_In, in_map_iff.
  exists (Z.to_nat (time_bin window_start window_end num_tbins (timestamp b))).
  split; [lia|]. apply in_seq. lia.
Qed.



(** The same boxes under the lookup of the default selection: the surviving
    car carries training id 2, not its position in the result. *)
Example select_scenario_default_selection :
  map (fun wb => (tbin wb, class_id (label wb)))
    (select sample_boxes 0 10 {[ 0 := 0%nat; 1 := 1%nat; 2 := 2%nat ]} 60 2)
  = [(0, 2)].
Proof. reflexivity. Qed.

(** ** ClassLookupBuilder: the claim *)

(** C5 (amended). For a selection whose names all occur in the schema and
    whose raw ids are pairwise distinct, [build] returns a lookup that maps the
    raw id of the [i]-th selected name to training id [i]; its ids are exactly
    0 .. len(class_selection) - 1, one per selected class, in selection order;
    a raw id of no selected name is excluded; and a repeated build returns the
    same lookup. *)
Theorem build_contiguous_ids (label_schema : gmap string Z)
    (class_selection : list string) :
  Forall (fun name => is_Some (label_schema !! name)) class_selection ->
  NoDup (selected_ids label_schema class_selection) ->
  exists lk,
    build label_schema class_selection = Ok lk
    /\ (forall i name raw,
          class_selection !! i = Some name -> label_schema !! name = Some raw ->
          lk !! raw = Some i)
    /\ (forall raw i,
          lk !! raw = Some i ->
          (i < length class_selection)%nat
          /\ exists name, class_selection !! i = Some name
                          /\ label_schema !! name = Some raw)
    /\ (forall raw,
          (forall name, name ∈ class_selection -> label_schema !! name ≠ Some raw) ->
          lk !! raw = None)
    /\ (forall lk', build label_schema class_selection = Ok lk' -> lk' = lk).
Proof.
  intros Hall Hnd.
  destruct (build_from_total _ _ Hall 0%nat ∅) as [lk Hlk].
  pose proof (build_from_lookup _ _ _ _ _ Hnd Hlk) as Hspec.
  exists lk. split; [exact Hlk|]. split; [|split; [|split]].
  - intros i name raw Hi Hs. apply Hspec. left. exists i. split; [|done].
    apply selected_ids_lookup; [done|]. by exists name.
  - intros raw i Hi. apply Hspec in Hi as [[j [Hj ->]]|[_ He]];
      [|by rewrite lookup_empty in He].
    simpl. split.
    + apply lookup_lt_Some in Hj. by rewrite selected_ids_length in Hj.
    + by apply selected_ids_lookup in Hj.
  - intros raw Hno. destruct (lk !! raw) as [i|] eqn:Hi; [|done].
    apply Hspec in Hi as [[j [Hj ->]]|[_ He]]; [|by rewrite lookup_empty in He].
    apply selected_ids_lookup in Hj as [name [Hn Hs]]; [|done].
    destruct (Hno name); [|done]. apply list_elem_of_lookup. by exists j.
  - intros lk' Hlk'. unfold build in Hlk'. congruence.
Qed.

(** C5, at the default selection over the sample schema. *)
Lemma build_contiguous_ids_witness :
  exists lk,
    build sample_schema ["pedestrian"; "two wheeler"; "car"] = Ok lk
    /\ lk !! 0 = Some 0%nat /\ lk !! 1 = Some 1%nat /\ lk !! 2 = Some 2%nat
    /\ lk !! 3 = None.
Proof.
  destruct (build_contiguous_ids sample_schema ["pedestrian"; "two wheeler"; "car"])
    as [lk (Hb & Hsel & _ & Hex & _)].
  - repeat constructor; vm_compute; eexists; reflexivity.
  - apply (bool_decide_unpack _). vm_compute. exact I.
  - exists lk. split; [exact Hb|].
    split; [apply (Hsel 0%nat "pedestrian"); reflexivity|].
    split; [apply (Hsel 1%nat "two wheeler"); reflexivity|].
    split; [apply (Hsel 2%nat "car"); reflexivity|].
    apply Hex. intros name Hname.
    repeat (apply elem_of_cons in Hname as [->|Hname]; [vm_compute; discriminate|]).
    by apply elem_of_nil in Hname.
Defined.

(** C5 fails as stated when a name is selected twice: both positions of
    ["car"; "car"] name raw id 2, and no lookup sends it to 0 and to 1. *)
Lemma build_repeated_name_counterexample :
  Forall (fun name => is_Some (sample_schema !! name)) ["car"; "car"]
  /\ ~ (exists lk,
          build sample_schema ["car"; "car"] = Ok lk
          /\ forall i name raw,
               ["car"; "car"] !! i = Some name -> sample_schema !! name = Some raw ->
               lk !! raw = Some i).
Proof.
  split.
  - repeat constructor; vm_compute; eexists; reflexivity.
  - intros [lk [_ H]].
    pose proof (H 0%nat "car" 2 eq_refl eq_refl) as H0.
    pose proof (H 1%nat "car" 2 eq_refl eq_refl) as H1.
    congruence.
Qed.

(** ** StreamCursor *)

Lemma advance_exhausted (cfg : CoreConfig) (c : StreamCursor) :
  state c = Exhausted -> advance cfg c = (c, Ok None).
Proof. intros H. unfold advance. by rewrite H. Qed.


(** A call that yields a chunk moves the offset by one window, within the
    recording. *)
Lemma advance_chunk (cfg : CoreConfig) (c c' : StreamCursor)
    (x : TensorChunk * BoxLabelSet) :
  advance cfg c = (c', Ok (Some x)) ->
  file c' = file c
  /\ offset c' = offset c + window_len cfg
  /\ offset c' <= t_last (file c).
Proof.
  unfold advance. intros H.
  destruct (state c) eqn:Hs; try (inversion H; fail).
  all: destruct (t_last (file c) <? offset c + window_len cfg) eqn:Hlt;
    [inversion H|].
  all: destruct (read_tensor _ _ _); [|inversion H].
  all: destruct (bool_decide _); inversion H; subst; simpl.
  all: apply Z.ltb_ge in Hlt; done.
Qed.

(** C3. Once a cursor is [Exhausted], any number of further calls of
    [advance] each return [None] (exhaustion), none raises, and the cursor
    stays as it is. *)
Theorem exhausted_is_terminal (cfg : CoreConfig) (c : StreamCursor) (n : nat) :
  state c = Exhausted ->
  poll cfg n c = (repeat (Ok None) n, c).
Proof.
  intros H. induction n as [|n IH]; simpl; [done|].
  rewrite (advance_exhausted cfg c H), IH. done.
Qed.

(** C3, on the recording "B" of one chunk: after the chunk and the call that
    meets the end, three more calls all return [None]. *)
Lemma exhausted_is_terminal_witness :
  poll sample_cfg 3 (poll sample_cfg 2 (open_cursor (sample_file "B" 1))).2
  = ([Ok None; Ok None; Ok None],
     (poll sample_cfg 2 (open_cursor (sample_file "B" 1))).2).
Proof.
  apply (exhausted_is_terminal sample_cfg
           (poll sample_cfg 2 (open_cursor (sample_file "B" 1))).2 3).
  reflexivity.
Defined.

(** ** StreamMultiplexer *)

Lemma refill_length (ss : list Slot) :
  forall i q, length (refill i ss q).1.1 = length ss.
Proof.
  induction ss as [|s rest IH]; intros i q; simpl; [done|].
  destruct s; [destruct q as [|f q0]| |destruct q as [|f q0]];
    match goal with |- context [refill ?j rest ?q'] =>
      specialize (IH j q'); destruct (refill j rest q') as [[rest' q''] log] end;
    simpl in *; by rewrite IH.
Qed.

(** The files assigned are the ones popped from the front of the queue, in
    pop order. *)
Lemma refill_queue (ss : list Slot) :
  forall i q, map snd (refill i ss q).2 ++ (refill i ss q).1.2 = q.
Proof.
  induction ss as [|s rest IH]; intros i q; simpl; [done|].
  destruct s; [destruct q as [|f q0]| |destruct q as [|f q0]];
    match goal with |- context [refill ?j rest ?q'] =>
      specialize (IH j q'); destruct (refill j rest q') as [[rest' q''] log] end;
    simpl in *; by rewrite ?IH.
Qed.

Lemma refill_no_retired (ss : list Slot) :
  forall i q, RetiredThisEpoch ∉ (refill i ss q).1.1.
Proof.
  induction ss as [|s rest IH]; intros i q; simpl; [apply not_elem_of_nil|].
  destruct s; [destruct q as [|f q0]| |destruct q as [|f q0]];
    match goal with |- context [refill ?j rest ?q'] =>
      specialize (IH j q'); destruct (refill j rest q') as [[rest' q''] log] end;
    simpl in *; apply not_elem_of_cons; done.
Qed.

Lemma refill_nil_queue (ss : list Slot) :
  forall i, (refill i ss []).1.2 = [] /\ (refill i ss []).2 = [].
Proof.
  induction ss as [|s rest IH]; intros i; simpl; [done|].
  destruct s; specialize (IH (S i));
    destruct (refill (S i) rest []) as [[rest' q''] log]; simpl in *; done.
Qed.

(** A slot left [Empty] by step 1 means that the queue has run out. *)
Lemma refill_empty_queue (ss : list Slot) :
  forall i q, Empty ∈ (refill i ss q).1.1 -> (refill i ss q).1.2 = [].
Proof.
  induction ss as [|s rest IH]; intros i q; simpl; [by intros ?%elem_of_nil|].
  destruct s; [destruct q as [|f q0]| |destruct q as [|f q0]];
    match goal with |- context [refill ?j rest ?q'] =>
      specialize (IH j q'); pose proof (refill_nil_queue rest j) as Hnil;
      destruct (refill j rest q') as [[rest' q''] log] end;
    simpl in *; intros [?|Hin]%elem_of_cons; try done; try (by apply Hnil); by apply IH.
Qed.

(** When step 1 leaves no slot active, it has assigned nothing. *)
Lemma refill_none_active (ss : list Slot) :
  forall i q,
    Forall not_active (refill i ss q).1.1 ->
    (refill i ss q).2 = [] /\ (ss <> [] -> q = []).
Proof.
  induction ss as [|s rest IH]; intros i q; simpl; [done|].
  destruct s; [destruct q as [|f q0]| |destruct q as [|f q0]];
    match goal with |- context [refill ?j rest ?q'] =>
      specialize (IH j q'); destruct (refill j rest q') as [[rest' q''] log] end;
    simpl in *; intros Hf; apply list.Forall_cons in Hf as [Hs Hf]; try done;
    destruct (IH Hf) as [-> _]; done.
Qed.

Lemma open_cursor_cost (f : RecordingFile) :
  (slot_cost (ActiveCursor (open_cursor f)) < file_cost f)%nat.
Proof. unfold slot_cost, cursor_left, file_cost, open_cursor. simpl. lia. Qed.

(** Step 1 does not raise the bound. *)
Lemma refill_cost (ss : list Slot) :
  forall i q,
    (list_sum (map slot_cost (refill i ss q).1.1)
     + list_sum (map file_cost (refill i ss q).1.2)
     <= list_sum (map slot_cost ss) + list_sum (map file_cost q))%nat.
Proof.
  induction ss as [|s rest IH]; intros i q; simpl; [done|].
  destruct s; [destruct q as [|f q0]| |destruct q as [|f q0]];
    match goal with |- context [refill ?j rest ?q'] =>
      specialize (IH j q'); destruct (refill j rest q') as [[rest' q''] log] end;
    simpl in *; try lia.
  all: pose proof (open_cursor_cost f) as Hc; simpl in Hc; lia.
Qed.

Lemma poll_slot_cost (cfg : CoreConfig) (s : Slot) :
  0 < window_len cfg ->
  (slot_cost (poll_slot cfg s).1 <= slot_cost s)%nat
  /\ (~ not_active s -> (slot_cost (poll_slot cfg s).1 < slot_cost s)%nat).
Proof.
  intros Hw. destruct s as [|c|]; simpl; [split; [lia|tauto]| |split; [lia|tauto]].
  destruct (advance cfg c) as [c' r] eqn:E.
  assert (slot_cost (match r with
                     | Ok (Some (t, l)) =>
                         (ActiveCursor c', {| chunk := t; labels := l; padding := false |})
                     | _ => (RetiredThisEpoch, padding_output cfg)
                     end).1 < cursor_left c + 2)%nat as H.
  { destruct r as [[[t l]|]|e]; simpl; try lia.
    apply advance_chunk in E as (Hf & Ho & Hle).
    unfold cursor_left. rewrite Hf. lia. }
  split; [lia | intros _; exact H].
Qed.

Lemma poll_slots_cost (cfg : CoreConfig) (ss : list Slot) :
  0 < window_len cfg ->
  (list_sum (map slot_cost (map fst (map (poll_slot cfg) ss)))
   <= list_sum (map slot_cost ss))%nat
  /\ (~ Forall not_active ss ->
      (list_sum (map slot_cost (map fst (map (poll_slot cfg) ss)))
       < list_sum (map slot_cost ss))%nat).
Proof.
  intros Hw. induction ss as [|s rest [IHle IHlt]]; simpl.
  - split; [lia|]. intros H. destruct H. constructor.
  - destruct (poll_slot_cost cfg s Hw) as [Hle Hlt]. split; [lia|].
    intros Hn. destruct s as [|c|].
    + assert (~ Forall not_active rest) as Hr.
      { intros Hr. apply Hn. by constructor. }
      specialize (IHlt Hr). lia.
    + assert (~ not_active (ActiveCursor c)) as Ha by (simpl; tauto).
      specialize (Hlt Ha). lia.
    + assert (~ Forall not_active rest) as Hr.
      { intros Hr. apply Hn. by constructor. }
      specialize (IHlt Hr). lia.
Qed.

Lemma poll_slot_empty (cfg : CoreConfig) (s : Slot) :
  is_empty (poll_slot cfg s).1 = true <-> not_active s.
Proof.
  destruct s as [|c|]; simpl; [done| |done].
  destruct (advance cfg c) as [c' [[[t l]|]|e]]; simpl; split; done.
Qed.

Lemma poll_slots_empty (cfg : CoreConfig) (ss : list Slot) :
  forallb is_empty (map fst (map (poll_slot cfg) ss)) = true <-> Forall not_active ss.
Proof.
  induction ss as [|s rest IH]; simpl.
  - split; [constructor | done].
  - rewrite andb_true_iff, poll_slot_empty, IH, list.Forall_cons. done.
Qed.

Lemma next_batch_eq (m : StreamMultiplexer) :
  next_batch m =
  let filled := (refill 0 (slots m) (queue m)).1.1 in
  let polled := map (poll_slot (mux_cfg m)) filled in
  ({| mux_cfg := mux_cfg m; mux_files := mux_files m;
      slots := map fst polled; queue := (refill 0 (slots m) (queue m)).1.2 |},
   if forallb is_empty (map fst polled) then None else Some (map snd polled)).
Proof.
  unfold next_batch. destruct (refill 0 (slots m) (queue m)) as [[filled q'] log].
  simpl. by destruct (forallb _ _).
Qed.

Lemma next_batch_preserves (m : StreamMultiplexer) :
  mux_cfg (next_batch m).1 = mux_cfg m
  /\ mux_files (next_batch m).1 = mux_files m
  /\ length (slots (next_batch m).1) = length (slots m).
Proof.
  rewrite next_batch_eq. simpl. split; [done|]. split; [done|].
  by rewrite !length_map, refill_length.
Qed.

(** The files a step assigns, then the queue it leaves, make up the queue it
    found: assignment follows the pop order. *)
Lemma next_batch_queue (m : StreamMultiplexer) :
  map snd (assignments m) ++ queue (next_batch m).1 = queue m.
Proof. rewrite next_batch_eq. simpl. apply refill_queue. Qed.

(** A step that returns a batch lowers the bound. *)
Lemma next_batch_decreases (m m' : StreamMultiplexer) (b : Batch) :
  0 < window_len (mux_cfg m) ->
  next_batch m = (m', Some b) ->
  (potential m' < potential m)%nat.
Proof.
  intros Hw. rewrite next_batch_eq. simpl.
  destruct (forallb _ _) eqn:Hall; [done|].
  intros H. inversion H; subst. unfold potential. simpl.
  destruct (poll_slots_cost (mux_cfg m) (refill 0 (slots m) (queue m)).1.1 Hw)
    as [_ Hlt].
  assert (~ Forall not_active (refill 0 (slots m) (queue m)).1.1) as Hna.
  { intros Hf. apply poll_slots_empty with (cfg := mux_cfg m) in Hf. congruence. }
  specialize (Hlt Hna).
  pose proof (refill_cost (slots m) 0 (queue m)). lia.
Qed.

(** The step that ends the epoch assigns nothing and, with at least one slot,
    finds the queue empty. *)
Lemma next_batch_end (m m' : StreamMultiplexer) :
  next_batch m = (m', None) ->
  assignments m = []
  /\ (slots m <> [] -> queue m = [] /\ queue m' = []).
Proof.
  rewrite next_batch_eq. simpl.
  destruct (forallb _ _) eqn:Hall; [|done].
  intros H. inversion H; subst. simpl.
  apply poll_slots_empty in Hall.
  destruct (refill_none_active _ _ _ Hall) as [Hlog Hq].
  split; [exact Hlog|]. intros Hne. specialize (Hq Hne).
  split; [done|]. rewrite Hq. apply refill_nil_queue.
Qed.

(** With a positive window length the epoch ends within the bound. *)
Lemma run_epoch_terminates (fuel : nat) :
  forall m,
    0 < window_len (mux_cfg m) ->
    (potential m < fuel)%nat ->
    exists tr mf, run_epoch fuel m = Some (tr, mf).
Proof.
  induction fuel as [|fuel IH]; intros m Hw Hp; [lia|]. simpl.
  destruct (next_batch m) as [m' [b|]] eqn:E; [|by eauto].
  pose proof (next_batch_decreases _ _ _ Hw E) as Hd.
  pose proof (next_batch_preserves m) as [Hc _]. rewrite E in Hc. simpl in Hc.
  destruct (IH m') as [tr [mf Hr]]; [by rewrite Hc | lia |].
  rewrite Hr. eauto.
Qed.

(** The files assigned during an epoch, then the queue left at its end, make
    up the queue the epoch started with. *)
Lemma run_epoch_schedule (fuel : nat) :
  forall m tr mf,
    run_epoch fuel m = Some (tr, mf) ->
    map snd (schedule tr) ++ queue mf = queue m
    /\ (slots m <> [] -> queue mf = [])
    /\ mux_cfg mf = mux_cfg m
    /\ mux_files mf = mux_files m.
Proof.
  induction fuel as [|fuel IH]; intros m tr mf H; [done|]. simpl in H.
  pose proof (next_batch_queue m) as Hq.
  pose proof (next_batch_preserves m) as (Hc & Hf & Hl).
  destruct (next_batch m) as [m' [b|]] eqn:E; simpl in *.
  - destruct (run_epoch fuel m') as [[tr' mf']|] eqn:Hr; [|done].
    inversion H; subst. destruct (IH _ _ _ Hr) as (IHq & IHe & IHc & IHf).
    unfold schedule in *. simpl. rewrite map_app, <- app_assoc, IHq.
    split; [done|]. split; [|split; congruence].
    intros Hne. apply IHe. intros Hnil. rewrite Hnil in Hl.
    destruct (slots m); [done | discriminate].
  - inversion H; subst. apply next_batch_end in E as [Ha He].
    rewrite Ha in Hq. simpl in *. split; [done|]. split; [|done].
    intros Hne. by destruct (He Hne).
Qed.

(** *** What the slots deliver *)


















(** The scenario of five recordings of 3, 1, 2, 4 and 2 chunks with two
    slots: the assignments of each step (slot, path) and its padding mask. *)
Example epoch_scenario :
  option_map
    (fun r => map (fun st => (map (fun a => (a.1, path a.2)) (assigned st),
                              map padding (batch st))) r.1)
    (epoch (mux_init sample_cfg sample_files))
  = Some [ ([(0%nat, "A"); (1%nat, "B")], [false; false]);
           ([], [false; true]);
           ([(1%nat, "C")], [false; false]);
           ([], [true; false]);
           ([(0%nat, "D")], [false; true]);
           ([(1%nat, "E")], [false; false]);
           ([], [false; false]);
           ([], [false; true]);
           ([], [true; true]) ].
Proof. vm_compute. reflexivity. Qed.

Lemma after_preserves (n : nat) :
  forall m,
    mux_cfg (after n m) = mux_cfg m
    /\ length (slots (after n m)) = length (slots m).
Proof.
  induction n as [|n IH]; intros m; simpl; [done|].
  destruct (IH (next_batch m).1) as [Hc Hl].
  destruct (next_batch_preserves m) as (Hc' & _ & Hl'). split; congruence.
Qed.

Lemma after_files (n : nat) :
  forall m, mux_files (after n m) = mux_files m.
Proof.
  induction n as [|n IH]; intros m; simpl; [done|].
  rewrite IH. by destruct (next_batch_preserves m) as (_ & Hf & _).
Qed.

(** An epoch that completes is the sequence of its steps. *)
Lemma run_epoch_steps (fuel : nat) :
  forall m tr mf n,
    run_epoch fuel m = Some (tr, mf) ->
    (length tr <= n)%nat ->
    steps (S n) m = tr.
Proof.
  induction fuel as [|fuel IH]; intros m tr mf n H Hn; [done|].
  cbn [run_epoch steps] in *.
  destruct (next_batch m) as [m' [b|]]; [|by inversion H].
  destruct (run_epoch fuel m') as [[tr' mf']|] eqn:Hr; [|done].
  injection H as <- <-. simpl in Hn. destruct n as [|n]; [lia|].
  f_equal. apply (IH m' tr' mf' n Hr). lia.
Qed.

(** Without shuffling, restarting forgets everything the steps taken so far
    have changed. *)
Lemma start_epoch_after (m : StreamMultiplexer)
    (perm1 perm2 : list RecordingFile -> list RecordingFile) (k : nat) :
  cfg_shuffle_files_per_epoch (mux_cfg m) = false ->
  start_epoch perm2 (after k (start_epoch perm1 m)) = start_epoch perm1 m.
Proof.
  intros Hs. unfold start_epoch at 1.
  destruct (after_preserves k (start_epoch perm1 m)) as [Hc _].
  rewrite Hc, after_files. simpl. unfold start_epoch. by rewrite Hs.
Qed.

(** C8. Without per-epoch shuffling, two consecutive epochs over the same
    file list have the same slot-to-file schedule.  Step for step: restarted
    after any number of steps of a first epoch, and whatever permutation is on
    offer, the multiplexer repeats the first epoch's assignments and batches
    for as many steps as one looks at.  As a whole: when the first epoch
    completes, the epoch run from the state it left completes with the same
    trace, and the files assigned follow the pop order of the queue.  And
    under a positive batch size and window the first epoch does complete, its
    assignments being the whole file list in order. *)
Theorem epochs_repeat (m : StreamMultiplexer)
    (perm1 perm2 : list RecordingFile -> list RecordingFile) :
  cfg_shuffle_files_per_epoch (mux_cfg m) = false ->
  (forall k n,
     steps n (start_epoch perm2 (after k (start_epoch perm1 m)))
     = steps n (start_epoch perm1 m))
  /\ (forall tr1 m1,
        epoch (start_epoch perm1 m) = Some (tr1, m1) ->
        epoch (start_epoch perm2 m1) = Some (tr1, m1)
        /\ map snd (schedule tr1) ++ queue m1 = mux_files m)
  /\ (0 < cfg_batch_size (mux_cfg m) ->
      0 < cfg_num_tbins (mux_cfg m) ->
      0 < cfg_delta_t (mux_cfg m) ->
      exists tr1 m1,
        epoch (start_epoch perm1 m) = Some (tr1, m1)
        /\ map snd (schedule tr1) = mux_files m
        /\ epoch (start_epoch perm2 m1) = Some (tr1, m1)).
Proof.
  intros Hs.
  assert (forall tr1 m1,
            epoch (start_epoch perm1 m) = Some (tr1, m1) ->
            epoch (start_epoch perm2 m1) = Some (tr1, m1)
            /\ map snd (schedule tr1) ++ queue m1 = mux_files m) as Hwhole.
  { intros tr1 m1 He.
    destruct (run_epoch_schedule _ _ _ _ He) as (Hq & _ & Hc & Hf).
    simpl in Hq, Hc, Hf. rewrite Hs in Hq. split; [|exact Hq].
    assert (start_epoch perm2 m1 = start_epoch perm1 m) as ->; [|exact He].
    unfold start_epoch. by rewrite Hc, Hf, Hs. }
  split; [|split; [exact Hwhole|]].
  - intros k n. by rewrite start_epoch_after.
  - intros Hb Hn Hd.
    destruct (run_epoch_terminates (S (potential (start_epoch perm1 m)))
                (start_epoch perm1 m)) as [tr1 [m1 Hr]];
      [simpl; unfold window_len; nia | lia |].
    exists tr1, m1. split; [exact Hr|].
    destruct (Hwhole tr1 m1 Hr) as [H2 Hq]. split; [|exact H2].
    destruct (run_epoch_schedule _ _ _ _ Hr) as (_ & He & _).
    rewrite He, app_nil_r in Hq; [exact Hq|].
    simpl. destruct (Z.to_nat (cfg_batch_size (mux_cfg m))) eqn:E; [lia | done].
Qed.

(** C8, on the sample recordings: the first epoch completes and assigns the
    five recordings in order, and the second epoch, offered the reversing
    permutation, repeats it. *)
Lemma epochs_repeat_witness :
  exists tr1 m1,
    epoch (start_epoch (fun l => l) (mux_init sample_cfg sample_files)) = Some (tr1, m1)
    /\ map snd (schedule tr1) = sample_files
    /\ epoch (start_epoch (@rev RecordingFile) m1) = Some (tr1, m1).
Proof.
  apply (proj2 (proj2 (epochs_repeat (mux_init sample_cfg sample_files)
                         (fun l => l) (@rev RecordingFile) eq_refl)));
    reflexivity.
Defined.

(** ** The data module *)

(** The builder fails only on a selected name that the schema lacks, and it
    names it. *)
Lemma build_from_raise (label_schema : gmap string Z) (names : list string) :
  forall k acc e,
    build_from label_schema names k acc = Raise e ->
    exists name, e = ConfigError name /\ name ∈ names /\ label_schema !! name = None.
Proof.
  induction names as [|name rest IH]; intros k acc e H; simpl in H; [done|].
  destruct (label_schema !! name) as [raw|] eqn:Hn.
  - destruct (IH _ _ _ H) as [n (He & Hin & Hl)].
    exists n. split; [done|]. split; [by apply list_elem_of_further | done].
  - inversion H; subst. exists name. split; [done|].
    split; [apply list_elem_of_here | done].
Qed.

(** A selected name that the schema lacks makes the builder fail. *)
Lemma build_from_absent (label_schema : gmap string Z) (names : list string)
    (name : string) :
  name ∈ names -> label_schema !! name = None ->
  forall k acc, exists what, build_from label_schema names k acc = Raise (ConfigError what).
Proof.
  intros Hin Hl. induction names as [|n rest IH]; intros k acc; simpl.
  - by apply elem_of_nil in Hin.
  - apply elem_of_cons in Hin as [->|Hin].
    + rewrite Hl. by exists n.
    + destruct (label_schema !! n) as [raw|]; [by apply IH | by exists n].
Qed.

Lemma init_kw_args (fs : FileSystem) (a : InitArgs) (ds : Gen4DetectionDataset) :
  init fs a = Ok ds ->
  exists class_lookup,
    create_class_lookup fs (arg_label_map_path a) (arg_class_selection a) = Ok class_lookup
    /\ kw_args ds =
       {| delta_t := arg_delta_t a;
          preprocess_function_name := arg_preprocess_function_name a;
          array_dim := [arg_num_tbins a; arg_channels a; arg_height a; arg_width a];
          load_labels := {| ll_num_tbins := arg_num_tbins a;
                            ll_class_lookup := class_lookup;
                            min_box_diag_network := 60 |};
          batch_size := arg_batch_size a;
          num_workers := arg_num_workers a;
          padding_kw := true;
          preprocess_kwargs := {[ "max_incr_per_pixel" := arg_max_incr_per_pixel a ]} |}
    /\ files_train ds = None /\ files_val ds = None /\ files_test ds = None.
Proof.
  unfold init, bind. intros H.
  destruct (create_class_lookup _ _ _) as [lk|e]; [|done].
  inversion H; subst. simpl. by exists lk.
Qed.

Lemma iterate_setup (fs : FileSystem) (ds : Gen4DetectionDataset) (split : Split) :
  iterate split (setup fs ds) =
  Ok {| sdl_files := glob fs (split_pattern ds (split_name split));
        sdl_kw_args := kw_args ds |}.
Proof. by destruct split. Qed.

(** C6 (amended). The size-filter threshold is not part of the configuration
    surface of the data module: whatever the caller passes to the constructor,
    the label loader it builds carries the built-in threshold 60, and so does
    the windowing configuration of every split's loader. *)
Theorem threshold_is_fixed (fs : FileSystem) (a : InitArgs) (ds : Gen4DetectionDataset) :
  init fs a = Ok ds ->
  min_box_diag_network (load_labels (kw_args ds)) = 60%Q
  /\ forall fs' split l,
       iterate split (setup fs' ds) = Ok l ->
       cfg_min_box_diagonal (mux_cfg (multiplexer_of fs' l)) = 60%Q.
Proof.
  intros H. apply init_kw_args in H as [lk (_ & Hkw & _)].
  split; [by rewrite Hkw|].
  intros fs' split l Hl. rewrite iterate_setup in Hl. inversion Hl; subst.
  simpl. by rewrite Hkw.
Qed.

(** C6, at the default arguments. *)
Lemma threshold_is_fixed_witness :
  match init sample_fs default_args with
  | Ok ds => min_box_diag_network (load_labels (kw_args ds)) = 60%Q
  | Raise _ => False
  end.
Proof.
  destruct (init sample_fs default_args) as [ds|e] eqn:E.
  - exact (proj1 (threshold_is_fixed sample_fs default_args ds E)).
  - vm_compute in E. discriminate.
Defined.

(** C6 fails as stated: no arguments make the constructed pipeline filter
    against the threshold 30. *)
Lemma threshold_not_configurable_counterexample :
  ~ (exists fs a ds,
       init fs a = Ok ds
       /\ (min_box_diag_network (load_labels (kw_args ds)) == 30)%Q).
Proof.
  intros (fs & a & ds & H & Heq).
  apply init_kw_args in H as [lk (_ & Hkw & _)].
  rewrite Hkw in Heq. simpl in Heq. discriminate Heq.
Qed.

(** C7 (amended). Construction fails, at once and with [ConfigError], exactly
    when a requested class name is absent from the label schema.  Batch size,
    number of time bins and [delta_t] are not checked: whenever every
    requested name is in the schema, construction succeeds and stores them as
    given, positive or not. *)
Theorem init_checks_class_names_only (fs : FileSystem) (a : InitArgs) :
  (forall name,
     name ∈ arg_class_selection a ->
     label_map fs (arg_label_map_path a) !! name = None ->
     exists what, init fs a = Raise (ConfigError what))
  /\ (forall e,
        init fs a = Raise e ->
        exists name,
          e = ConfigError name
          /\ name ∈ arg_class_selection a
          /\ label_map fs (arg_label_map_path a) !! name = None)
  /\ (Forall (fun name => is_Some (label_map fs (arg_label_map_path a) !! name))
        (arg_class_selection a) ->
      exists ds,
        init fs a = Ok ds
        /\ batch_size (kw_args ds) = arg_batch_size a
        /\ delta_t (kw_args ds) = arg_delta_t a
        /\ array_dim (kw_args ds)
           = [arg_num_tbins a; arg_channels a; arg_height a; arg_width a]
        /\ ll_num_tbins (load_labels (kw_args ds)) = arg_num_tbins a).
Proof.
  unfold init, create_class_lookup, build, bind. split; [|split].
  - intros name Hin Hl.
    destruct (build_from_absent _ _ _ Hin Hl 0%nat ∅) as [what ->]. by exists what.
  - intros e H.
    destruct (build_from _ _ _ _) as [lk|e'] eqn:Hb; [done|].
    inversion H; subst. by apply build_from_raise in Hb.
  - intros Hall. destruct (build_from_total _ _ Hall 0%nat ∅) as [lk ->].
    eexists. split; [reflexivity|]. done.
Qed.

(** C7 fails as stated: with a batch size of 0, 0 time bins and a negative
    [delta_t] construction succeeds. *)
Lemma init_accepts_nonpositive_counterexample :
  arg_batch_size degenerate_args <= 0
  /\ arg_num_tbins degenerate_args <= 0
  /\ arg_delta_t degenerate_args <= 0
  /\ exists ds,
       init sample_fs degenerate_args = Ok ds
       /\ batch_size (kw_args ds) = 0
       /\ delta_t (kw_args ds) = -1.
Proof.
  split; [done|]. split; [done|]. split; [done|].
  eexists. split; [vm_compute; reflexivity|]. split; reflexivity.
Qed.

(** C9. After [setup] the module holds the three file lists, and the loader
    of each split is built from the split's full file list and from the one
    dictionary [kw_args]: the three multiplexers share their windowing
    configuration, and each call starts afresh, all slots empty and the whole
    list queued. *)
Theorem splits_share_configuration (fs : FileSystem) (ds : Gen4DetectionDataset)
    (split : Split) :
  exists l,
    iterate split (setup fs ds) = Ok l
    /\ sdl_kw_args l = kw_args ds
    /\ sdl_files l = glob fs (split_pattern ds (split_name split))
    /\ mux_cfg (multiplexer_of fs l) = core_config (kw_args ds)
    /\ queue (multiplexer_of fs l)
       = map (open_recording fs) (glob fs (split_pattern ds (split_name split)))
    /\ slots (multiplexer_of fs l)
       = repeat Empty (Z.to_nat (batch_size (kw_args ds)))
    /\ files_train (setup fs ds) = Some (glob fs (split_pattern ds "train"))
    /\ files_val (setup fs ds) = Some (glob fs (split_pattern ds "val"))
    /\ files_test (setup fs ds) = Some (glob fs (split_pattern ds "test")).
Proof.
  eexists. split; [apply iterate_setup|]. simpl. done.
Qed.



(** The same on the module built from the default arguments: the training
    loader is refused before [setup] and built from the globbed paths after
    it. *)
Example dataloader_scenario :
  match init sample_fs default_args with
  | Ok ds =>
      train_dataloader ds = Raise (AttributeError "files_train")
      /\ option_map sdl_files
           match train_dataloader (setup sample_fs ds) with
           | Ok l => Some l
           | Raise _ => None
           end
         = Some ["data/Gen 4 Histograms/train/*.h5"]
  | Raise _ => False
  end.
Proof. vm_compute. split; reflexivity. Qed.

(** ** The data module: further properties *)

Lemma setups_snoc (fss : list FileSystem) (fs : FileSystem) (ds : Gen4DetectionDataset) :
  setups (fss ++ [fs]) ds = setup fs (setups fss ds).
Proof. unfold setups. by rewrite foldl_app. Qed.

(** [setup] writes the three file lists and nothing else. *)
Lemma setups_configuration (fss : list FileSystem) :
  forall ds,
    dataset_path (setups fss ds) = dataset_path ds
    /\ channels (setups fss ds) = channels ds
    /\ height (setups fss ds) = height ds
    /\ width (setups fss ds) = width ds
    /\ class_selection (setups fss ds) = class_selection ds
    /\ kw_args (setups fss ds) = kw_args ds.
Proof.
  induction fss as [|fs fss IH]; intros ds; simpl; [done|].
  destruct (IH (setup fs ds)) as (H1 & H2 & H3 & H4 & H5 & H6).
  unfold setups in *. simpl. by rewrite H1, H2, H3, H4, H5, H6.
Qed.

Lemma append_cancel (p s1 s2 : string) : p +:+ s1 = p +:+ s2 -> s1 = s2.
Proof.
  induction p as [|ch p IH]; simpl; intros H; [done|].
  injection H as H. by apply IH.
Qed.

(** A run of [setup] calls ends in the state its last call alone gives. *)
Lemma setups_last (fss : list FileSystem) (fs : FileSystem) (ds : Gen4DetectionDataset) :
  setups (fss ++ [fs]) ds = setup fs ds.
Proof.
  rewrite setups_snoc.
  destruct (setups_configuration fss ds) as (Hp & Hc & Hh & Hw & Hs & Hk).
  unfold setup, split_pattern. by rewrite Hp, Hc, Hh, Hw, Hs, Hk.
Qed.


(** X2. On a module obtained from the constructor by any number of [setup]
    calls, the three dataloaders stand or fall together: with no [setup] yet,
    each raises [AttributeError] for its own file list; after at least one,
    each returns a loader. *)
Theorem dataloaders_all_or_none (fs : FileSystem) (a : InitArgs)
    (ds : Gen4DetectionDataset) (fss : list FileSystem) :
  init fs a = Ok ds ->
  (fss = []
   /\ forall split,
        iterate split (setups fss ds) = Raise (AttributeError (files_attr split)))
  \/ (fss <> []
      /\ forall split, exists l, iterate split (setups fss ds) = Ok l).
Proof.
  intros H. destruct fss as [|fs0 fss0] using rev_ind.
  - left. split; [done|]. intros split. simpl.
    apply init_kw_args in H as [lk (_ & _ & Ht & Hv & Hs)].
    destruct split; simpl;
      unfold train_dataloader, val_dataloader, test_dataloader;
      rewrite ?Ht, ?Hv, ?Hs; done.
  - right. split; [by destruct fss0|]. intros split.
    rewrite setups_last, iterate_setup. eauto.
Qed.

(** X2, at the default arguments: no loader before [setup], all three after
    two runs of it. *)
Lemma dataloaders_all_or_none_witness :
  match init sample_fs default_args with
  | Ok ds =>
      (forall split,
         iterate split ds = Raise (AttributeError (files_attr split)))
      /\ (forall split,
            exists l, iterate split (setups [empty_dir_fs; sample_fs] ds) = Ok l)
  | Raise _ => False
  end.
Proof.
  destruct (init sample_fs default_args) as [ds|e] eqn:E.
  - split.
    + destruct (dataloaders_all_or_none sample_fs default_args ds [] E)
        as [[_ H]|[Hne _]]; [exact H | by destruct Hne].
    + destruct (dataloaders_all_or_none sample_fs default_args ds
                  [empty_dir_fs; sample_fs] E)
        as [[Hnil _]|[_ H]]; [discriminate Hnil | exact H].
  - vm_compute in E. discriminate.
Defined.

Lemma append_assoc (a b c : string) : (a +:+ b) +:+ c = a +:+ (b +:+ c).
Proof.
  induction a as [|ch a IH]; [done|].
  change (String ch ((a +:+ b) +:+ c) = String ch (a +:+ (b +:+ c))).
  by rewrite IH.
Qed.

Lemma join_slash_snoc (l : list string) (a b : string) :
  join_slash (l ++ [a; b]) = lead_slash l +:+ a +:+ "/" +:+ b.
Proof.
  induction l as [|x l IH]; [done|].
  change (join_slash ((x :: l) ++ [a; b]))
    with (match l ++ [a; b] with
          | [] => x
          | _ :: _ => x +:+ "/" +:+ join_slash (l ++ [a; b])
          end).
  destruct (l ++ [a; b]) eqn:E; [by destruct l|].
  rewrite IH. cbn [lead_slash]. by rewrite !append_assoc.
Qed.

(** The pattern of a split whose name is one plain component: the root and
    the components of the dataset path, the split's name and "*.h5", joined by
    slashes. *)
Lemma split_pattern_closed (ds : Gen4DetectionDataset) (split : string) :
  Path split = {| path_root := ""; path_parts := [split] |} ->
  split_pattern ds split
  = path_root (dataset_path ds)
    +:+ lead_slash (path_parts (dataset_path ds)) +:+ split +:+ "/" +:+ "*.h5".
Proof.
  intros Hs. unfold split_pattern, joinpath. rewrite Hs. simpl.
  unfold path_str. simpl. rewrite <- app_assoc. simpl.
  rewrite <- join_slash_snoc.
  destruct (path_parts (dataset_path ds) ++ [split; "*.h5"]) eqn:E.
  - by destruct (path_parts (dataset_path ds)).
  - by destruct (path_root (dataset_path ds)).
Qed.

(** The module globs what [pathlib] makes of the dataset path: a trailing
    slash, a leading "./" and an empty path leave no trace in the pattern. *)
Example split_pattern_normalises :
  map (fun p => path_str (joinpath (joinpath (Path p) "train") "*.h5"))
    ["data/"; "./data"; ""; "/data//gen4"; "//data"; "///data"; "../data"]
  = ["data/train/*.h5"; "data/train/*.h5"; "train/*.h5"; "/data/gen4/train/*.h5";
     "//data/train/*.h5"; "/data/train/*.h5"; "../data/train/*.h5"].
Proof. reflexivity. Qed.

(** X3. Whatever the dataset path, the three splits are globbed under three
    different patterns: no split reads another split's directory listing. *)
Theorem split_patterns_distinct (ds : Gen4DetectionDataset) :
  split_pattern ds "train" <> split_pattern ds "val"
  /\ split_pattern ds "train" <> split_pattern ds "test"
  /\ split_pattern ds "val" <> split_pattern ds "test".
Proof.
  rewrite !split_pattern_closed by reflexivity.
  repeat split; intros H; do 2 apply append_cancel in H; discriminate H.
Qed.

(** X4. On every module obtained from the constructor by any number of
    [setup] calls, the tensor shape handed to the loaders is
    [num_tbins; channels; height; width] with the number of time bins the
    label loader was given and the channels, height and width the module
    exposes as attributes: tensors and labels are cut into the same number of
    bins. *)
Theorem array_dim_consistent (fs : FileSystem) (a : InitArgs)
    (ds : Gen4DetectionDataset) (fss : list FileSystem) :
  init fs a = Ok ds ->
  array_dim (kw_args (setups fss ds))
  = [ll_num_tbins (load_labels (kw_args (setups fss ds)));
     channels (setups fss ds); height (setups fss ds); width (setups fss ds)].
Proof.
  intros H.
  destruct (setups_configuration fss ds) as (_ & -> & -> & -> & _ & ->).
  pose proof H as H'. apply init_kw_args in H' as [lk (_ & -> & _)].
  unfold init, bind in H. destruct (create_class_lookup _ _ _); [|done].
  by inversion H.
Qed.

(** X4, at the default arguments after one [setup]. *)
Lemma array_dim_consistent_witness :
  match init sample_fs default_args with
  | Ok ds =>
      array_dim (kw_args (setups [sample_fs] ds))
      = [ll_num_tbins (load_labels (kw_args (setups [sample_fs] ds)));
         channels (setups [sample_fs] ds); height (setups [sample_fs] ds);
         width (setups [sample_fs] ds)]
  | Raise _ => False
  end.
Proof.
  destruct (init sample_fs default_args) as [ds|e] eqn:E.
  - exact (array_dim_consistent sample_fs default_args ds [sample_fs] E).
  - vm_compute in E. discriminate.
Defined.

(** X5. No constructor argument and no [setup] call switches padding off:
    on a module that has only been constructed and set up, with [kw_args] as
    the constructor left it, every loader returned is built with
    [padding=True]. *)
Theorem padding_always_enabled (fs : FileSystem) (a : InitArgs)
    (ds : Gen4DetectionDataset) (fss : list FileSystem) (split : Split)
    (l : SequentialDataLoader) :
  init fs a = Ok ds ->
  iterate split (setups fss ds) = Ok l ->
  padding_kw (sdl_kw_args l) = true.
Proof.
  intros H Hl. apply init_kw_args in H as [lk (_ & Hkw & _)].
  destruct (setups_configuration fss ds) as (_ & _ & _ & _ & _ & Hk).
  assert (sdl_kw_args l = kw_args (setups fss ds)) as ->.
  { destruct split; simpl in Hl;
      unfold train_dataloader, val_dataloader, test_dataloader, dataloader in Hl;
      [destruct (files_train _)|destruct (files_val _)|destruct (files_test _)];
      by inversion Hl. }
  by rewrite Hk, Hkw.
Qed.

(** X5, at arguments with degenerate sizes, on the validation split. *)
Lemma padding_always_enabled_witness :
  match init sample_fs degenerate_args with
  | Ok ds =>
      match iterate Val (setups [sample_fs] ds) with
      | Ok l => padding_kw (sdl_kw_args l) = true
      | Raise _ => False
      end
  | Raise _ => False
  end.
Proof.
  destruct (init sample_fs degenerate_args) as [ds|e] eqn:E.
  - destruct (iterate Val (setups [sample_fs] ds)) as [l|e] eqn:El.
    + exact (padding_always_enabled sample_fs degenerate_args ds [sample_fs] Val l E El).
    + simpl in El. discriminate El.
  - vm_compute in E. discriminate.
Defined.

(** X6. The constructor reads the label map and nothing else of the file
    system: two file systems with the same label map behind
    [label_map_path] give the same module or the same error, whatever their
    dataset directories hold. *)
Theorem init_reads_label_map_only (fs1 fs2 : FileSystem) (a : InitArgs) :
  label_map fs1 (arg_label_map_path a) = label_map fs2 (arg_label_map_path a) ->
  init fs1 a = init fs2 a.
Proof. intros H. unfold init, create_class_lookup. by rewrite H. Qed.

(** X6, for a populated and an empty dataset directory. *)
Lemma init_reads_label_map_only_witness :
  init sample_fs default_args = init empty_dir_fs default_args.
Proof.
  apply (init_reads_label_map_only sample_fs empty_dir_fs default_args).
  reflexivity.
Defined.
